(** * finance_app: the paycheck calculator of [app.py]

    A shallow embedding of the computational core of [app.py]
    ([validate], [analyze_finance], [advice_messages], [bar_chart] and the
    [POST /analyze] handler [post]) and the properties its specification
    states about them.

    Numbers.  The fields of [FinanceInput] are Python floats.  They are
    modelled by exact rationals [Q]: every finite float is a rational, and
    [+], [-], [*], [/] and the comparisons are the exact ones, so that no
    operation rounds.  Equality of computed amounts is therefore [Qeq]
    ([==]).  The only roundings left are the explicit ones of the source,
    [round(x, n)] and the [.nf] format.  Not-a-number and the infinities
    have no counterpart here. *)

From Stdlib Require Import QArith Qround Qminmax ZArith Bool Ascii String List Lia Lqa.
From Stdlib Require Import NArith DecimalString.
Import ListNotations.

Local Open Scope string_scope.
Local Open Scope list_scope.
Local Open Scope Q_scope.

(** ** The Python primitives the source uses *)

Module Py.

(** [x < y], [x <= y] and [x > y] as the booleans Python computes. *)
Definition lt (x y : Q) : bool := negb (Qle_bool y x).
Definition le (x y : Q) : bool := Qle_bool x y.
Definition gt (x y : Q) : bool := lt y x.

(** The builtins [max(a, b)] and [min(a, b)]: the second argument is
    returned only when it is strictly larger (smaller). *)
Definition max (a b : Q) : Q := if gt b a then b else a.
Definition min (a b : Q) : Q := if lt b a then b else a.

(** Truthiness of a list and of a string. *)
Definition truthy {A} (l : list A) : bool :=
  match l with [] => false | _ :: _ => true end.
Definition bool_str (s : string) : bool :=
  match s with EmptyString => false | String _ _ => true end.
(** [s or d] on strings. *)
Definition or_str (s d : string) : string := if bool_str s then s else d.

(** Rounding to the nearest integer, ties to the even one. *)
Definition round_half_even (q : Q) : Z :=
  let f := Qfloor q in
  match Qcompare (q - inject_Z f) (1 # 2) with
  | Lt => f
  | Gt => (f + 1)%Z
  | Eq => if Z.even f then f else (f + 1)%Z
  end.

Definition pow10 (n : nat) : Z := (10 ^ Z.of_nat n)%Z.

(** [round(x, ndigits)] is the multiple of [10^-ndigits] nearest to [x],
    ties to even. *)
Definition round (x : Q) (ndigits : nat) : Q :=
  inject_Z (round_half_even (x * inject_Z (pow10 ndigits))) / inject_Z (pow10 ndigits).

(** Decimal digits of a natural number, and left padding with zeros. *)
Definition digits (n : N) : string := NilZero.string_of_uint (N.to_uint n).

Fixpoint zeros (n : nat) : string :=
  match n with O => EmptyString | S n' => String "0"%char (zeros n') end.

Definition pad (width : nat) (s : string) : string :=
  (zeros (width - String.length s) ++ s)%string.

(** [f"{x:.nf}"] for [n >= 1]: [x] rounded to [n] decimals, ties to even,
    printed with exactly [n] fractional digits.  [sign] is the sign bit
    of the float printed: Python prints the minus sign also for a
    negative zero, which is what [round] returns on a negative argument
    that rounds to zero. *)
Definition format_f (sign : bool) (x : Q) (n : nat) : string :=
  let m := Z.abs_N (round_half_even (x * inject_Z (pow10 n))) in
  let p := Z.to_N (pow10 n) in
  ((if sign then "-" else "")
     ++ digits (m / p) ++ "." ++ pad n (digits (m mod p)))%string.

(** [str(n)] of an int. *)
Definition str_int (z : Z) : string :=
  ((if (z <? 0)%Z then "-" else "") ++ digits (Z.abs_N z))%string.

End Py.

(** ** Data model *)

Record FinanceInput := {
  housing_status : string;
  housing_payment : Q;
  auto_payment : Q;
  credit_payment : Q;
  student_payment : Q;
  monthly_after_tax_income : Q;   (* per paycheck (biweekly) *)
  save_percent : Q;               (* percent of leftover to save *)
  period_mode : string;           (* "paycheck" or "monthly" *)
  show_annual : string            (* checkbox; non-empty if checked *)
}.

(** ** Validation *)

Definition err_housing : string := "Housing payment cannot be negative.".
Definition err_auto : string := "Auto loan payment cannot be negative.".
Definition err_credit : string := "Credit card payment cannot be negative.".
Definition err_student : string := "Student loan payment cannot be negative.".
Definition err_income : string := "Take-home pay per paycheck cannot be negative.".
Definition err_percent : string := "Percent to save must be between 0 and 100.".

(** [errors.append(msg)] under [if cond:]. *)
Definition append_if {A} (cond : bool) (l : list A) (x : A) : list A :=
  if cond then l ++ [x] else l.

Definition validate (finance : FinanceInput) : list string :=
  let errors := [] in
  let errors := append_if (Py.lt (housing_payment finance) 0) errors err_housing in
  let errors := append_if (Py.lt (auto_payment finance) 0) errors err_auto in
  let errors := append_if (Py.lt (credit_payment finance) 0) errors err_credit in
  let errors := append_if (Py.lt (student_payment finance) 0) errors err_student in
  let errors := append_if (Py.lt (monthly_after_tax_income finance) 0) errors err_income in
  let errors :=
    append_if (Py.lt (save_percent finance) 0 || Py.gt (save_percent finance) 100)
              errors err_percent in
  errors.

(** ** Analysis *)

(** The local variables of [analyze_finance], before formatting. *)
Module Vars.
Record t := {
  total_debt : Q;
  income : Q;
  available_cash : Q;
  can_save : bool;
  savings : Q;
  spending : Q;
  debt_income_ratio : option Q;
  total_debt_monthly : Q;
  available_monthly : Q;
  monthly_savings : Q;
  monthly_spending : Q;
  annual_savings : Q;
  annual_spending : Q
}.
End Vars.

Definition paychecks_per_year : Q := 26.
Definition monthly_factor : Q := paychecks_per_year / 12.0.  (* ~2.1667 *)

Definition analyze_vars (data : FinanceInput) : Vars.t :=
  let total_debt :=
    housing_payment data
    + auto_payment data
    + credit_payment data
    + student_payment data in
  let income := monthly_after_tax_income data in
  let available_cash := income - total_debt in
  let '(can_save, savings, spending) :=
    if Py.le available_cash 0 then
      (false, 0.0, available_cash)
    else
      let save_fraction := Py.max 0.0 (Py.min (save_percent data) 100.0) / 100.0 in
      let savings := available_cash * save_fraction in
      (true, savings, available_cash - savings) in
  (* Ratios and projections *)
  let debt_income_ratio :=
    if Py.gt income 0 then Some (total_debt / income) else None in
  {| Vars.total_debt := total_debt;
     Vars.income := income;
     Vars.available_cash := available_cash;
     Vars.can_save := can_save;
     Vars.savings := savings;
     Vars.spending := spending;
     Vars.debt_income_ratio := debt_income_ratio;
     (* Monthly equivalents (approximate) *)
     Vars.total_debt_monthly := total_debt * monthly_factor;
     Vars.available_monthly := available_cash * monthly_factor;
     Vars.monthly_savings := savings * monthly_factor;
     Vars.monthly_spending := spending * monthly_factor;
     (* Annual projections *)
     Vars.annual_savings := savings * paychecks_per_year;
     Vars.annual_spending := spending * paychecks_per_year |}.

(** [fmt = lambda x: f"{round(x, 2):.2f}"]. *)
Definition fmt (x : Q) : string := Py.format_f (Py.lt x 0) (Py.round x 2) 2.

(** The dict [analyze_finance] returns, one field per key. *)
Record AnalysisResult := {
  (* per-paycheck *)
  total_debt : string;
  available_cash : string;
  savings_per_paycheck : string;
  spending_per_paycheck : string;
  (* monthly equivalents *)
  total_debt_monthly : string;
  available_monthly : string;
  monthly_savings : string;
  monthly_spending : string;
  (* annual *)
  annual_savings : string;
  annual_spending : string;
  (* raw values for logic/advice/chart *)
  can_save : bool;
  available_cash_raw : Q;
  total_debt_raw : Q;
  income_raw : Q;
  debt_income_ratio : option Q;
  savings_raw : Q;
  spending_raw : Q
}.

Definition analyze_finance (data : FinanceInput) : AnalysisResult :=
  let v := analyze_vars data in
  {| total_debt := fmt (Vars.total_debt v);
     available_cash := fmt (Vars.available_cash v);
     savings_per_paycheck := fmt (Vars.savings v);
     spending_per_paycheck := fmt (Vars.spending v);
     total_debt_monthly := fmt (Vars.total_debt_monthly v);
     available_monthly := fmt (Vars.available_monthly v);
     monthly_savings := fmt (Vars.monthly_savings v);
     monthly_spending := fmt (Vars.monthly_spending v);
     annual_savings := fmt (Vars.annual_savings v);
     annual_spending := fmt (Vars.annual_spending v);
     can_save := Vars.can_save v;
     available_cash_raw := Vars.available_cash v;
     total_debt_raw := Vars.total_debt v;
     income_raw := Vars.income v;
     debt_income_ratio := Vars.debt_income_ratio v;
     savings_raw := Vars.savings v;
     spending_raw := Vars.spending v |}.

(** ** Advice generation *)

Definition msg_short : string :=
  "You are short this period. First goal: get leftover cash to at least 0. "
  ++ "Options: reduce non-essential spending, pause extra debt payments, or temporarily increase income "
  ++ "(overtime, side work, selling unused items).".

Definition msg_bills : string :=
  "List your must-pay bills vs. flexible expenses. Anything flexible should be cut or reduced "
  ++ "until leftover cash is non-negative.".

Definition msg_very_heavy : string :=
  "Your debt payments are more than 60% of your income this period. This is very heavy. "
  ++ "Consider refinancing, consolidating, or focusing on paying down one high-interest debt while "
  ++ "keeping others at minimum payments.".

Definition msg_high : string :=
  "Your debt payments are between 40% and 60% of your income this period. This is high. "
  ++ "Be careful taking on new debt and try to reduce one balance consistently.".

Definition msg_low_savings : string :=
  "You have leftover cash but are saving a small portion of it. "
  ++ "If possible, slowly increase your save percentage (for example, +1% every month) "
  ++ "until you reach a level that feels sustainable.".

Definition advice_messages (result : AnalysisResult) : list string :=
  let msgs := [] in
  let available := available_cash_raw result in
  let r := debt_income_ratio result in
  let msgs :=
    if Py.lt available 0 then (msgs ++ [msg_short]) ++ [msg_bills] else msgs in
  let msgs :=
    match r with
    | Some r =>
        if Py.gt r 0.6 then msgs ++ [msg_very_heavy]
        else if Py.gt r 0.4 then msgs ++ [msg_high]
        else msgs
    | None => msgs
    end in
  let savings_raw := savings_raw result in
  let msgs :=
    append_if (Py.gt available 0 && Py.lt savings_raw (Py.max 20 (0.05 * available)))
              msgs msg_low_savings in
  msgs.

(** ** Markup *)

(** A FastHTML component: a tag with its children and keyword attributes,
    or a string child. *)
#[warnings="-register-all"] Inductive FT : Type :=
| Tag (name : string) (children : list FT) (attrs : list (string * string))
| Txt (s : string).

Definition Div := Tag "div".
Definition Article := Tag "article".
Definition H2 := Tag "h2".
Definition H3 := Tag "h3".
Definition Ul := Tag "ul".
Definition Li := Tag "li".
Definition P := Tag "p".
Definition Span := Tag "span".

(** ** Simple horizontal bar chart (per-paycheck) *)

(** [width] is the int [0] or the float [pct(value)]. *)
Inductive Num : Type :=
| Int (z : Z)
| Float (q : Q).

Definition num_value (w : Num) : Q :=
  match w with Int z => inject_Z z | Float q => q end.

(** [f"{width}"]: [str] of an int, and the [repr] of a float that is a
    multiple of one tenth, which prints one fractional digit. *)
Definition str_num (w : Num) : string :=
  match w with
  | Int z => Py.str_int z
  | Float q => Py.format_f (Py.lt q 0) q 1
  end.

(** [f"{width:.1f}"]. *)
Definition fmt_1f (w : Num) : string :=
  Py.format_f (Py.lt (num_value w) 0) (num_value w) 1.

Definition chart_placeholder : FT :=
  Div [P [Txt "No positive amounts to display in the chart."] [("cls", "muted")]]
      [("cls", "chart")].

Definition pct (total x : Q) : Q := Py.round (100 * x / total) 1.

Definition chart_width (total value : Q) : Num :=
  if Py.le value 0 then Int 0 else Float (pct total value).

Definition chart_row (label : string) (width : Num) : FT :=
  Div [ Span [Txt label] [("cls", "chart-label")];
        Div [ Div [] [("cls", "chart-bar");
                      ("style", ("width: " ++ str_num width ++ "%;")%string)] ]
            [("cls", "chart-bar-wrapper")];
        Span [Txt (fmt_1f width ++ "%")] [("cls", "muted")] ]
      [("cls", "chart-row")].

Definition chart_card (rows : list FT) : FT :=
  Div ([H3 [Txt "Per-paycheck breakdown (percentage of income)"] []]
         ++ rows
         ++ [P [Txt "Chart is based on per-paycheck values; percentages are the same for monthly."]
               [("cls", "muted")]])
      [("cls", "chart card")].

Definition bar_chart (result : AnalysisResult) : FT :=
  let debt := Py.max (total_debt_raw result) 0 in
  let savings := Py.max (savings_raw result) 0 in
  let spending := Py.max (spending_raw result) 0 in
  let total := debt + savings + Py.max spending 0 in
  if Py.le total 0 then chart_placeholder
  else
    let rows :=
      map (fun '(label, value) => chart_row label (chart_width total value))
          [ ("Debt", debt);
            ("Savings", savings);
            ("Spending", Py.max spending 0) ] in
    chart_card rows.

(** ** POST route *)

(** The handler calls the four components in sequence.  To state which of
    them a request reaches, every call is recorded: a computation returns
    its value together with the calls it made, in order. *)
Inductive Call : Type :=
| CallValidate
| CallAnalyze
| CallAdvice
| CallChart.

Definition Traced (A : Type) : Type := (A * list Call)%type.

Definition ret {A} (a : A) : Traced A := (a, []).

Definition bind {A B} (m : Traced A) (k : A -> Traced B) : Traced B :=
  let '(a, t) := m in
  let '(b, t') := k a in
  (b, t ++ t').

(** A call of component [c] that returns [v]. *)
Definition call {A} (c : Call) (v : A) : Traced A := (v, [c]).

Notation "x <- m ;; k" := (bind m (fun x => k))
  (at level 61, m at next level, right associativity).

Definition error_fragment (errors : list string) : FT :=
  Div [ Article [ H2 [Txt "Please correct the following issues:"] [];
                  Ul (map (fun e => Li [Txt e] []) errors) [] ]
                [("cls", "card")] ]
      [("id", "result")].

Definition summary_of (result : AnalysisResult) (mode : string) : string * string :=
  if Py.le (available_cash_raw result) 0 then
    ((if String.eqb mode "monthly" then
        "You do not have leftover cash after debts (in the monthly equivalent). "
        ++ "You cannot save based on these numbers."
      else
        "You do not have leftover cash after debts this paycheck. "
        ++ "You cannot save based on these numbers.")%string,
     "result-bad")
  else
    ((if String.eqb mode "monthly" then
        "Monthly equivalent: you have " ++ available_monthly result ++ " left after debts. "
        ++ "You save " ++ monthly_savings result ++ " and keep "
        ++ monthly_spending result ++ " for other expenses per month."
      else
        "You have " ++ available_cash result ++ " left after debts this paycheck. "
        ++ "You save " ++ savings_per_paycheck result ++ " and keep "
        ++ spending_per_paycheck result ++ " for other expenses.")%string,
     "result-good").

Definition li_text (s : string) : FT := Li [Txt s] [].

Definition detail_items (result : AnalysisResult) (mode : string) (show_annual : bool)
  : list FT :=
  let items := [] in
  let items :=
    if String.eqb mode "monthly" then
      items ++
      [ li_text ("total_debt_per_month (approx): " ++ total_debt_monthly result);
        li_text ("available_cash_before_saving_per_month (approx): " ++ available_monthly result);
        li_text ("savings_per_month (approx): " ++ monthly_savings result);
        li_text ("spending_money_per_month (approx): " ++ monthly_spending result) ]
    else
      items ++
      [ li_text ("total_debt_per_paycheck: " ++ total_debt result);
        li_text ("available_cash_before_saving: " ++ available_cash result);
        li_text ("savings_per_paycheck: " ++ savings_per_paycheck result);
        li_text ("spending_money_per_paycheck: " ++ spending_per_paycheck result) ] in
  append_if show_annual items
    (li_text ("annual_savings (26 paychecks): " ++ annual_savings result ++ " "
              ++ "| annual_spending (26 paychecks): " ++ annual_spending result)).

Definition advice_block_of (advice : list string) : option FT :=
  if Py.truthy advice then
    Some (Article [ H3 [Txt "Advice based on these numbers"] [];
                    Ul (map li_text advice) [] ]
                  [("cls", "card")])
  else None.

Definition results_fragment (summary summary_cls : string) (items : list FT)
           (chart : FT) (advice_block : option FT) : FT :=
  Div [ Article [ H2 [Txt "Results"] [];
                  P [Txt summary] [("cls", summary_cls)];
                  Ul items [];
                  P [Txt "If available_cash is ≤ 0, savings are set to 0."] [("cls", "muted")] ]
                [("cls", "card")];
        chart;
        match advice_block with Some b => b | None => Txt "" end ]
      [("id", "result")].

Definition post (finance : FinanceInput) : Traced FT :=
  errors <- call CallValidate (validate finance) ;;
  if Py.truthy errors then
    ret (error_fragment errors)
  else
    result <- call CallAnalyze (analyze_finance finance) ;;
    let mode := Py.or_str (period_mode finance) "paycheck" in
    let show_annual := Py.bool_str (show_annual finance) in
    (* Summary text depends on mode *)
    let '(summary, summary_cls) := summary_of result mode in
    (* Main details list *)
    let items := detail_items result mode show_annual in
    (* Advice *)
    advice <- call CallAdvice (advice_messages result) ;;
    let advice_block := advice_block_of advice in
    (* Bar chart (always per-paycheck) *)
    chart <- call CallChart (bar_chart result) ;;
    ret (results_fragment summary summary_cls items chart advice_block).

(** ** Inputs of the specification's scenarios *)

(** Scenarios A and B. *)
Definition scenario_A : FinanceInput :=
  {| housing_status := "rent"; housing_payment := 0; auto_payment := 0;
     credit_payment := 0; student_payment := 0;
     monthly_after_tax_income := 1000; save_percent := 10;
     period_mode := "paycheck"; show_annual := "" |}.

Definition scenario_B : FinanceInput :=
  {| housing_status := "rent"; housing_payment := 500; auto_payment := 200;
     credit_payment := 150; student_payment := 150;
     monthly_after_tax_income := 900; save_percent := 20;
     period_mode := "paycheck"; show_annual := "" |}.

(** Scenarios C, D and E. *)
Definition scenario_C : FinanceInput :=
  {| housing_status := "own"; housing_payment := 650; auto_payment := 0;
     credit_payment := 0; student_payment := 0;
     monthly_after_tax_income := 1000; save_percent := 10;
     period_mode := "monthly"; show_annual := "on" |}.


Definition scenario_E : FinanceInput :=
  {| housing_status := "rent"; housing_payment := 0; auto_payment := 0;
     credit_payment := 0; student_payment := 0;
     monthly_after_tax_income := 1000; save_percent := 150;
     period_mode := "paycheck"; show_annual := "" |}.

(** Scenario A viewed per month. *)
Definition scenario_A_monthly : FinanceInput :=
  {| housing_status := "rent"; housing_payment := 0; auto_payment := 0;
     credit_payment := 0; student_payment := 0;
     monthly_after_tax_income := 1000; save_percent := 10;
     period_mode := "monthly"; show_annual := "" |}.


(** ** The words of the specification *)

(** [clamp(x, lo, hi)]. *)
Definition clamp (x lo hi : Q) : Q :=
  if Qlt_le_dec x lo then lo else if Qlt_le_dec hi x then hi else x.

(** The four payment fields added up, and what is left of the income. *)
Definition payments (data : FinanceInput) : Q :=
  housing_payment data + auto_payment data + credit_payment data + student_payment data.

Definition leftover (data : FinanceInput) : Q :=
  monthly_after_tax_income data - payments data.

(** ** Vocabulary of the statements *)


(** Membership and absence of repetitions, decided on strings. *)
Definition mem (x : string) (l : list string) : bool := existsb (String.eqb x) l.






(** Two inputs that differ at most in [period_mode]. *)
Definition same_but_period_mode (f1 f2 : FinanceInput) : Prop :=
  housing_status f1 = housing_status f2
  /\ housing_payment f1 = housing_payment f2
  /\ auto_payment f1 = auto_payment f2
  /\ credit_payment f1 = credit_payment f2
  /\ student_payment f1 = student_payment f2
  /\ monthly_after_tax_income f1 = monthly_after_tax_income f2
  /\ save_percent f1 = save_percent f2
  /\ show_annual f1 = show_annual f2.

(** The chart of a rendered results fragment: its second child. *)
Definition rendered_chart (fragment : FT) : option FT :=
  match fragment with
  | Tag _ [_; chart; _] _ => Some chart
  | _ => None
  end.

(** ** Vocabulary of the further properties *)


(** The input with another view mode. *)
Definition with_period_mode (mode : string) (f : FinanceInput) : FinanceInput :=
  {| housing_status := housing_status f;
     housing_payment := housing_payment f;
     auto_payment := auto_payment f;
     credit_payment := credit_payment f;
     student_payment := student_payment f;
     monthly_after_tax_income := monthly_after_tax_income f;
     save_percent := save_percent f;
     period_mode := mode;
     show_annual := show_annual f |}.

(** The input with another value of the annual checkbox. *)
Definition with_show_annual (checked : string) (f : FinanceInput) : FinanceInput :=
  {| housing_status := housing_status f;
     housing_payment := housing_payment f;
     auto_payment := auto_payment f;
     credit_payment := credit_payment f;
     student_payment := student_payment f;
     monthly_after_tax_income := monthly_after_tax_income f;
     save_percent := save_percent f;
     period_mode := period_mode f;
     show_annual := checked |}.

(** The class of the summary paragraph of a rendered results fragment, and
    the items of its detail list. *)
Definition rendered_summary_cls (fragment : FT) : option string :=
  match fragment with
  | Tag _ [Tag _ [_; Tag _ _ [(_, c)]; _; _] _; _; _] _ => Some c
  | _ => None
  end.

Definition rendered_items (fragment : FT) : option (list FT) :=
  match fragment with
  | Tag _ [Tag _ [_; _; Tag _ items _; _] _; _; _] _ => Some items
  | _ => None
  end.





(** The values the form of [get] starts with: zero amounts, 10 percent,
    the per-paycheck view, the annual box not ticked. *)
Definition form_defaults : FinanceInput :=
  {| housing_status := "rent"; housing_payment := 0; auto_payment := 0;
     credit_payment := 0; student_payment := 0;
     monthly_after_tax_income := 0; save_percent := 10;
     period_mode := "paycheck"; show_annual := "" |}.

(** The line the annual checkbox adds to the detail list. *)
Definition annual_line (result : AnalysisResult) : FT :=
  li_text ("annual_savings (26 paychecks): " ++ annual_savings result ++ " "
           ++ "| annual_spending (26 paychecks): " ++ annual_spending result).

(** The children of a rendered fragment with the id [result]. *)
Definition result_children (fragment : FT) : option (list FT) :=
  match fragment with
  | Tag "div" children [("id", "result")] => Some children
  | _ => None
  end.

(** * Properties *)

(** ** Comparisons, [max] and [min] *)

Section Comparisons.

Variables x y : Q.

Lemma lt_spec : reflect (x < y) (Py.lt x y).
Proof.
  unfold Py.lt. destruct (Qle_bool y x) eqn:E; cbn; constructor.
  - apply Qle_bool_iff in E. lra.
  - apply Qnot_le_lt. intro H. apply Qle_bool_iff in H. congruence.
Qed.

Lemma le_spec : reflect (x <= y) (Py.le x y).
Proof.
  unfold Py.le. destruct (Qle_bool x y) eqn:E; constructor.
  - now apply Qle_bool_iff.
  - intro H. apply Qle_bool_iff in H. congruence.
Qed.

End Comparisons.

Lemma gt_spec (x y : Q) : reflect (y < x) (Py.gt x y).
Proof. apply lt_spec. Qed.

Lemma max_Qmax (a b : Q) : Py.max a b == Qmax a b.
Proof.
  unfold Py.max. destruct (gt_spec b a) as [H | H].
  - symmetry. apply Q.max_r. lra.
  - symmetry. apply Q.max_l. lra.
Qed.

Lemma min_Qmin (a b : Q) : Py.min a b == Qmin a b.
Proof.
  unfold Py.min. destruct (lt_spec b a) as [H | H].
  - symmetry. apply Q.min_r. lra.
  - symmetry. apply Q.min_l. lra.
Qed.

(** [max(0.0, min(x, 100.0))] is the clamp of the specification. *)
Lemma max_min_clamp (x : Q) : Py.max 0.0 (Py.min x 100.0) == clamp x 0 100.
Proof.
  unfold Py.max, Py.min, clamp.
  destruct (lt_spec 100.0 x) as [H | H];
    [ destruct (gt_spec 100.0 0.0) as [H0 | H0] | destruct (gt_spec x 0.0) as [H0 | H0] ];
    destruct (Qlt_le_dec x 0); try destruct (Qlt_le_dec 100 x); lra.
Qed.

Lemma clamp_bounds (x : Q) : 0 <= clamp x 0 100 <= 100.
Proof.
  unfold clamp. destruct (Qlt_le_dec x 0); try destruct (Qlt_le_dec 100 x); lra.
Qed.

(** Case analysis on every comparison of the goal. *)
Ltac py_cases :=
  repeat match goal with
    | |- context [Py.lt ?a ?b] => destruct (lt_spec a b)
    | |- context [Py.le ?a ?b] => destruct (le_spec a b)
    | |- context [Py.gt ?a ?b] => destruct (gt_spec a b)
    end.

(** ** The analyzer *)

Lemma save_fraction_bounds (p : Q) :
  0 <= Py.max 0.0 (Py.min p 100.0) / 100.0 <= 1.
Proof.
  pose proof (max_min_clamp p) as E. pose proof (clamp_bounds p) as B.
  set (c := Py.max 0.0 (Py.min p 100.0)) in *.
  assert (c / 100.0 == c * (1 # 100)) as -> by (now field).
  lra.
Qed.

Lemma raw_available_cash (data : FinanceInput) :
  available_cash_raw (analyze_finance data) = leftover data.
Proof. unfold analyze_finance, analyze_vars. now destruct (Py.le _ 0). Qed.

Lemma raw_total_debt (data : FinanceInput) :
  total_debt_raw (analyze_finance data) = payments data.
Proof. unfold analyze_finance, analyze_vars. now destruct (Py.le _ 0). Qed.

Lemma raw_income (data : FinanceInput) :
  income_raw (analyze_finance data) = monthly_after_tax_income data.
Proof. unfold analyze_finance, analyze_vars. now destruct (Py.le _ 0). Qed.

(** The branch taken when nothing is left. *)
Lemma analyze_shortfall (data : FinanceInput) :
  leftover data <= 0 ->
  can_save (analyze_finance data) = false
  /\ savings_raw (analyze_finance data) = 0.0
  /\ spending_raw (analyze_finance data) = leftover data.
Proof.
  intros H. unfold analyze_finance, analyze_vars. fold (payments data). fold (leftover data).
  destruct (le_spec (leftover data) 0); [now cbn | contradiction].
Qed.

(** The branch taken when something is left. *)
Lemma analyze_surplus (data : FinanceInput) :
  0 < leftover data ->
  can_save (analyze_finance data) = true
  /\ savings_raw (analyze_finance data)
     = leftover data * (Py.max 0.0 (Py.min (save_percent data) 100.0) / 100.0)
  /\ spending_raw (analyze_finance data)
     = leftover data - savings_raw (analyze_finance data).
Proof.
  intros H. unfold analyze_finance, analyze_vars. fold (payments data). fold (leftover data).
  destruct (le_spec (leftover data) 0); [lra | now cbn].
Qed.



(** The figures the specification lists for scenarios A and B. *)
Example scenario_A_figures :
  let r := analyze_finance scenario_A in
  total_debt r = "0.00" /\ available_cash r = "1000.00"
  /\ savings_per_paycheck r = "100.00" /\ spending_per_paycheck r = "900.00"
  /\ can_save r = true.
Proof. vm_compute. repeat split. Qed.

Example scenario_B_figures :
  let r := analyze_finance scenario_B in
  available_cash r = "-100.00"
  /\ savings_per_paycheck r = "0.00" /\ spending_per_paycheck r = "-100.00"
  /\ can_save r = false.
Proof. vm_compute. repeat split. Qed.

(** ** Rounding and formatting respect the value of a rational *)

#[global] Instance round_half_even_comp : Proper (Qeq ==> eq) Py.round_half_even.
Proof.
  intros x y E. unfold Py.round_half_even.
  rewrite (Qfloor_comp x y E).
  assert (Qcompare (x - inject_Z (Qfloor y)) (1 # 2)
          = Qcompare (y - inject_Z (Qfloor y)) (1 # 2)) as -> by (now rewrite E).
  reflexivity.
Qed.

#[global] Instance lt_comp : Proper (Qeq ==> Qeq ==> eq) Py.lt.
Proof. intros x x' Ex y y' Ey. unfold Py.lt. now rewrite Ex, Ey. Qed.

Lemma round_comp (x y : Q) (n : nat) : x == y -> Py.round x n = Py.round y n.
Proof. intros E. unfold Py.round. now rewrite E. Qed.

#[global] Instance fmt_comp : Proper (Qeq ==> eq) fmt.
Proof.
  intros x y E. unfold fmt. rewrite (round_comp x y 2 E). now rewrite E.
Qed.


(** C5: the debt-to-income ratio is [total_debt / income] exactly when the
    income is positive; when the income is zero the ratio is absent
    ([None], not the number 0), whatever the payments are. *)
Theorem debt_income_ratio_present_iff (data : FinanceInput) :
  let r := analyze_finance data in
  let income := monthly_after_tax_income data in
  let total_debt :=
    housing_payment data + auto_payment data + credit_payment data + student_payment data in
  (0 < income -> debt_income_ratio r = Some (total_debt / income))
  /\ (income == 0 -> debt_income_ratio r = None)
  /\ (debt_income_ratio r <> None <-> 0 < income).
Proof.
  cbv zeta. unfold analyze_finance, analyze_vars.
  destruct (Py.le _ 0); cbn;
    destruct (gt_spec (monthly_after_tax_income data) 0) as [H | H];
    (repeat split; intros; try reflexivity; try congruence; try lra).
Qed.

(** The ratio of scenario C is present, and absent once the income is zero. *)
Lemma debt_income_ratio_present_iff_witness :
  debt_income_ratio (analyze_finance scenario_C) = Some (650 / 1000)
  /\ debt_income_ratio
       (analyze_finance
          {| housing_status := "rent"; housing_payment := 650; auto_payment := 0;
             credit_payment := 0; student_payment := 0;
             monthly_after_tax_income := 0; save_percent := 10;
             period_mode := "paycheck"; show_annual := "" |}) = None.
Proof.
  split.
  - destruct (debt_income_ratio_present_iff scenario_C) as (H & _).
    rewrite H; reflexivity.
  - match goal with |- debt_income_ratio (analyze_finance ?d) = _ =>
      destruct (debt_income_ratio_present_iff d) as (_ & H & _) end.
    apply H. reflexivity.
Defined.


(** The savings and the spending always add up to the leftover cash, and
    the savings lie between zero and the leftover cash when it is positive
    (and are zero otherwise). *)
Lemma savings_split (data : FinanceInput) :
  let r := analyze_finance data in
  savings_raw r + spending_raw r == leftover data
  /\ 0 <= savings_raw r
  /\ savings_raw r <= Qmax (leftover data) 0.
Proof.
  cbv zeta. destruct (Qlt_le_dec 0 (leftover data)) as [H | H].
  - destruct (analyze_surplus data H) as (_ & Hs & Hp). rewrite Hp, Hs.
    pose proof (save_fraction_bounds (save_percent data)) as B.
    set (f := Py.max 0.0 (Py.min (save_percent data) 100.0) / 100.0) in *.
    rewrite (Q.max_l (leftover data) 0) by lra.
    repeat split; [ring | nra | nra].
  - destruct (analyze_shortfall data H) as (_ & -> & ->).
    rewrite (Q.max_r (leftover data) 0) by lra.
    repeat split; lra.
Qed.

(** C7: when the leftover cash is positive, savings plus spending equal the
    leftover cash (in exact arithmetic, before any rounding for display). *)
Theorem savings_plus_spending (data : FinanceInput) :
  let r := analyze_finance data in
  0 < available_cash_raw r ->
  savings_raw r + spending_raw r == available_cash_raw r.
Proof.
  cbv zeta. intros _. rewrite raw_available_cash. apply savings_split.
Qed.

(** Scenario A: 100 saved and 900 kept out of 1000. *)
Lemma savings_plus_spending_witness :
  0 < available_cash_raw (analyze_finance scenario_A)
  /\ savings_raw (analyze_finance scenario_A) + spending_raw (analyze_finance scenario_A)
     == available_cash_raw (analyze_finance scenario_A).
Proof.
  split.
  - reflexivity.
  - apply (savings_plus_spending scenario_A). reflexivity.
Defined.



(** ** Lists of messages *)

Section Subseq.

Context {A : Type}.
Implicit Types l : list A.






End Subseq.

Lemma mem_In (x : string) (l : list string) : In x l <-> mem x l = true.
Proof.
  unfold mem. rewrite existsb_exists. split.
  - intros H. exists x. split; [assumption | apply String.eqb_refl].
  - intros (y & Hy & E). apply String.eqb_eq in E. now subst.
Qed.



(** Decides [In m l <-> P] for a closed list [l], given the comparisons that
    settle [P] as hypotheses. *)
Ltac settle_In :=
  match goal with
  | |- In ?m ?l <-> _ =>
      rewrite (mem_In m l);
      let b := eval vm_compute in (mem m l) in
      change (mem m l) with b;
      split; [ try discriminate; intros _ | try reflexivity; intros ? ]
  end.

(** ** The validator *)





(** ** The advisor *)



(** When each message is among the advice. *)
Lemma advice_membership (result : AnalysisResult) :
  let msgs := advice_messages result in
  let available := available_cash_raw result in
  (In msg_short msgs <-> available < 0)
  /\ (In msg_bills msgs <-> available < 0)
  /\ (In msg_very_heavy msgs <->
      exists q, debt_income_ratio result = Some q /\ 0.6 < q)
  /\ (In msg_high msgs <->
      exists q, debt_income_ratio result = Some q /\ 0.4 < q <= 0.6)
  /\ (In msg_low_savings msgs <->
      0 < available /\ savings_raw result < Qmax 20 (0.05 * available)).
Proof.
  cbv zeta.
  refine (conj _ (conj _ (conj _ (conj _ _))));
    unfold advice_messages;
    rewrite (max_Qmax 20 (0.05 * available_cash_raw result));
    destruct (debt_income_ratio result) as [q | ];
    py_cases; cbn [append_if andb app].
  all: settle_In;
    first [ lra
          | split; lra
          | eexists; split; [reflexivity | lra]
          | match goal with
            | H : exists _, _ |- _ =>
                destruct H as (q' & E & H);
                first [ discriminate E | injection E as <-; lra ]
            end ].
Qed.



(** ** Rounding *)

Lemma round_half_even_floor (x : Q) :
  (Qfloor x <= Py.round_half_even x <= Qfloor x + 1)%Z.
Proof.
  unfold Py.round_half_even.
  destruct (Qcompare _ _); [destruct (Z.even _) | | ]; lia.
Qed.

(** Rounding never crosses an integer. *)
Lemma round_half_even_lower (z : Z) (x : Q) :
  inject_Z z <= x -> (z <= Py.round_half_even x)%Z.
Proof.
  intros H. apply Qfloor_resp_le in H. rewrite Qfloor_Z in H.
  pose proof (round_half_even_floor x). lia.
Qed.

Lemma round_half_even_upper (z : Z) (x : Q) :
  x <= inject_Z z -> (Py.round_half_even x <= z)%Z.
Proof.
  intros H. pose proof (Qfloor_resp_le _ _ H) as Hf. rewrite Qfloor_Z in Hf.
  destruct (Z.eq_dec (Qfloor x) z) as [E | E].
  - unfold Py.round_half_even.
    pose proof (Qfloor_le x) as Hx. rewrite E in *.
    destruct (Qcompare_spec (x - inject_Z z) (1 # 2)) as [H1 | H1 | H1];
      [lra | lia | lra].
  - pose proof (round_half_even_floor x). lia.
Qed.



(** ** The chart builder *)

Lemma chart_width_comp (total total' value value' : Q) :
  total == total' -> value == value' ->
  chart_width total value = chart_width total' value'.
Proof.
  intros Et Ev. unfold chart_width, pct, Py.le. rewrite Ev.
  destruct (Qle_bool value' 0); [reflexivity | ].
  f_equal. apply round_comp. now rewrite Et, Ev.
Qed.


(** The total the source computes is the sum of the three clamped values. *)
Lemma chart_total (result : AnalysisResult) :
  Py.max (total_debt_raw result) 0 + Py.max (savings_raw result) 0
  + Py.max (Py.max (spending_raw result) 0) 0
  == Qmax (total_debt_raw result) 0 + Qmax (savings_raw result) 0
     + Qmax (spending_raw result) 0.
Proof.
  rewrite !max_Qmax.
  rewrite (Q.max_l (Qmax (spending_raw result) 0) 0) by apply Q.le_max_r.
  reflexivity.
Qed.



(** ** The handler *)

Lemma truthy_nonempty {A : Type} (l : list A) : Py.truthy l = true <-> l <> [].
Proof. destruct l; cbn; split; congruence. Qed.

(** A valid submission goes through the four components, in order. *)
Lemma post_valid (finance : FinanceInput) :
  validate finance = [] ->
  exists summary summary_cls : string,
    post finance
    = (results_fragment summary summary_cls
         (detail_items (analyze_finance finance)
            (Py.or_str (period_mode finance) "paycheck")
            (Py.bool_str (show_annual finance)))
         (bar_chart (analyze_finance finance))
         (advice_block_of (advice_messages (analyze_finance finance))),
       [CallValidate; CallAnalyze; CallAdvice; CallChart]).
Proof.
  intros Hv. unfold post, bind, call, ret. rewrite Hv. cbn [Py.truthy].
  destruct (summary_of _ _) as [summary summary_cls].
  exists summary, summary_cls. reflexivity.
Qed.

(** C8: when [validate] returns errors, the handler renders the error list
    and nothing else, and computes nothing: [analyze_finance],
    [advice_messages] and [bar_chart] are not called. *)
Theorem post_invalid_only_errors (finance : FinanceInput) :
  validate finance <> [] ->
  fst (post finance) = error_fragment (validate finance)
  /\ snd (post finance) = [CallValidate]
  /\ ~ In CallAnalyze (snd (post finance))
  /\ ~ In CallAdvice (snd (post finance))
  /\ ~ In CallChart (snd (post finance)).
Proof.
  intros Hv. apply truthy_nonempty in Hv.
  unfold post, bind, call, ret. rewrite Hv. cbn [fst snd app].
  repeat split; try reflexivity; intros [H | []]; discriminate H.
Qed.

(** Scenario E: a percentage of 150 stops at the validator. *)
Lemma post_invalid_only_errors_witness :
  validate scenario_E <> []
  /\ fst (post scenario_E) = error_fragment [err_percent]
  /\ snd (post scenario_E) = [CallValidate].
Proof.
  assert (validate scenario_E <> []) as Hv by discriminate.
  split; [exact Hv | ].
  destruct (post_invalid_only_errors scenario_E Hv) as (Hf & Hc & _).
  split; [exact Hf | exact Hc].
Defined.

Lemma analyze_finance_ignores_period_mode (f1 f2 : FinanceInput) :
  same_but_period_mode f1 f2 -> analyze_finance f1 = analyze_finance f2.
Proof.
  intros (_ & Hh & Ha & Hc & Hs & Hi & Hp & _).
  unfold analyze_finance, analyze_vars. now rewrite Hh, Ha, Hc, Hs, Hi, Hp.
Qed.

(** C9: two valid inputs that differ only in [period_mode] are rendered
    with the same bar chart: the chart is built from the per-paycheck raw
    values of the analysis and does not read [period_mode]. *)
Theorem bar_chart_period_invariant (f1 f2 : FinanceInput) :
  validate f1 = [] -> validate f2 = [] ->
  same_but_period_mode f1 f2 ->
  bar_chart (analyze_finance f1) = bar_chart (analyze_finance f2)
  /\ rendered_chart (fst (post f1)) = Some (bar_chart (analyze_finance f1))
  /\ rendered_chart (fst (post f2)) = rendered_chart (fst (post f1)).
Proof.
  intros Hv1 Hv2 Hsame.
  destruct (post_valid f1 Hv1) as (s1 & c1 & ->).
  destruct (post_valid f2 Hv2) as (s2 & c2 & ->).
  rewrite (analyze_finance_ignores_period_mode f1 f2 Hsame).
  repeat split.
Qed.

(** Scenario A per paycheck and per month: another summary, the same chart. *)
Lemma bar_chart_period_invariant_witness :
  period_mode scenario_A <> period_mode scenario_A_monthly
  /\ fst (post scenario_A) <> fst (post scenario_A_monthly)
  /\ rendered_chart (fst (post scenario_A_monthly)) = rendered_chart (fst (post scenario_A)).
Proof.
  split; [discriminate | split].
  - vm_compute. discriminate.
  - apply bar_chart_period_invariant; try reflexivity.
    repeat split.
Defined.

(** * Further properties of the code *)

(** ** Validity, as bounds on the fields *)

Lemma validate_nil_bounds (finance : FinanceInput) :
  validate finance = [] ->
  0 <= housing_payment finance /\ 0 <= auto_payment finance
  /\ 0 <= credit_payment finance /\ 0 <= student_payment finance
  /\ 0 <= monthly_after_tax_income finance
  /\ 0 <= save_percent finance <= 100.
Proof.
  unfold validate. py_cases; cbn [append_if orb app]; intros H;
    try discriminate H; repeat split; lra.
Qed.






(** ** The analyzer on valid and on out-of-range percentages *)







(** The ratio, whenever the income is positive. *)
Lemma ratio_of_positive_income (data : FinanceInput) :
  0 < monthly_after_tax_income data ->
  debt_income_ratio (analyze_finance data)
  = Some (payments data / monthly_after_tax_income data).
Proof.
  intros H. unfold analyze_finance, analyze_vars. fold (payments data).
  destruct (Py.le _ 0); cbn;
    (destruct (gt_spec (monthly_after_tax_income data) 0); [reflexivity | lra]).
Qed.


(** Comparing a quotient with a bound, without the division. *)
Lemma div_gt_iff (p i c : Q) : 0 < i -> (c < p / i <-> c * i < p).
Proof.
  intros H. set (q := p / i).
  assert (q * i == p) as E by (subst q; field; lra).
  split; intros; nra.
Qed.

Lemma div_ge_iff (p i c : Q) : 0 < i -> (c <= p / i <-> c * i <= p).
Proof.
  intros H. set (q := p / i).
  assert (q * i == p) as E by (subst q; field; lra).
  split; intros; nra.
Qed.


(** X4: with a positive income the ratio is above 1 exactly when the
    payments exceed the income, that is, when the leftover cash is
    negative; on a valid input it is never negative. *)
Theorem ratio_above_one_iff_short (data : FinanceInput) :
  0 < monthly_after_tax_income data ->
  exists q : Q,
    debt_income_ratio (analyze_finance data) = Some q
    /\ (1 < q <-> available_cash_raw (analyze_finance data) < 0)
    /\ (validate data = [] -> 0 <= q).
Proof.
  intros Hi. exists (payments data / monthly_after_tax_income data).
  split; [now apply ratio_of_positive_income | ].
  rewrite raw_available_cash. unfold leftover. split.
  - rewrite (div_gt_iff _ _ 1 Hi). split; intros; lra.
  - intros Hv. apply validate_nil_bounds in Hv as (Hh & Ha & Hc & Hs & _).
    rewrite (div_ge_iff _ _ 0 Hi). unfold payments. lra.
Qed.

(** Scenario B: payments of 1000 on an income of 900. *)
Lemma ratio_above_one_iff_short_witness :
  exists q : Q,
    debt_income_ratio (analyze_finance scenario_B) = Some q /\ 1 < q.
Proof.
  destruct (ratio_above_one_iff_short scenario_B) as (q & E & H & _);
    [reflexivity | ].
  exists q. split; [exact E | ]. apply H. reflexivity.
Defined.

(** ** The advice on an analysed input *)





(** X7: the advice never holds more than three messages, and it never
    tells someone who is short to raise the percentage saved. *)
Theorem advice_at_most_three (result : AnalysisResult) :
  (List.length (advice_messages result) <= 3)%nat
  /\ ~ (In msg_short (advice_messages result)
        /\ In msg_low_savings (advice_messages result)).
Proof.
  split.
  - unfold advice_messages. destruct (debt_income_ratio result) as [q | ];
      py_cases; cbn [append_if andb app List.length]; try lia; exfalso; lra.
  - destruct (advice_membership result) as (Hs & _ & _ & _ & Hl).
    rewrite Hs, Hl. intros (H1 & H2 & _). lra.
Qed.






(** ** Rounding and display *)

Lemma pow10_pos (n : nat) : 0 < inject_Z (Py.pow10 n).
Proof.
  unfold Py.pow10. change 0 with (inject_Z 0). rewrite <- Zlt_Qlt.
  apply Z.pow_pos_nonneg; lia.
Qed.

(** Rounding to the nearest integer moves a number by at most one half. *)
Lemma round_half_even_error (y : Q) :
  - (1 # 2) <= inject_Z (Py.round_half_even y) - y <= 1 # 2.
Proof.
  unfold Py.round_half_even.
  pose proof (Qfloor_le y) as Hlo. pose proof (Qlt_floor y) as Hhi.
  rewrite inject_Z_plus in Hhi. change (inject_Z 1) with 1 in Hhi.
  destruct (Qcompare_spec (y - inject_Z (Qfloor y)) (1 # 2)) as [H | H | H];
    [destruct (Z.even (Qfloor y)) | | ];
    rewrite ?inject_Z_plus; change (inject_Z 1) with 1; lra.
Qed.

(** An integer is its own rounding. *)
Lemma round_half_even_Z (k : Z) : Py.round_half_even (inject_Z k) = k.
Proof.
  apply Z.le_antisymm.
  - apply round_half_even_upper. lra.
  - apply round_half_even_lower. lra.
Qed.

Lemma round_error_scaled (x : Q) (n : nat) :
  - (1 # 2) <= (Py.round x n - x) * inject_Z (Py.pow10 n) <= 1 # 2.
Proof.
  unfold Py.round. pose proof (pow10_pos n) as Hp.
  pose proof (round_half_even_error (x * inject_Z (Py.pow10 n))) as He.
  set (p := inject_Z (Py.pow10 n)) in *.
  set (k := inject_Z (Py.round_half_even (x * p))) in *.
  assert ((k / p - x) * p == k - x * p) as -> by (field; lra).
  exact He.
Qed.

(** X9: [round(x, n)] is within half a unit of the last digit kept; for the
    two decimals of [fmt], within half a cent of the amount. *)
Theorem round_error (x : Q) (n : nat) :
  - (1 # 2) <= (Py.round x n - x) * inject_Z (Py.pow10 n) <= 1 # 2
  /\ - (1 # 200) <= Py.round x 2 - x <= 1 # 200.
Proof.
  split; [apply round_error_scaled | ].
  pose proof (round_error_scaled x 2) as G.
  change (inject_Z (Py.pow10 2)) with 100 in G. lra.
Qed.

(** X10: rounding twice is rounding once: [round(round(x, n), n)] is
    [round(x, n)], so the [.2f] format applied by [fmt] after [round(x, 2)]
    prints the digits of [round(x, 2)] itself. *)
Theorem round_idempotent (x : Q) (n : nat) :
  Py.round (Py.round x n) n = Py.round x n
  /\ Py.round_half_even (Py.round x n * inject_Z (Py.pow10 n))
     = Py.round_half_even (x * inject_Z (Py.pow10 n)).
Proof.
  assert (Py.round_half_even (Py.round x n * inject_Z (Py.pow10 n))
          = Py.round_half_even (x * inject_Z (Py.pow10 n))) as E.
  { transitivity
      (Py.round_half_even (inject_Z (Py.round_half_even (x * inject_Z (Py.pow10 n)))));
      [ | apply round_half_even_Z ].
    apply round_half_even_comp. unfold Py.round.
    pose proof (pow10_pos n). field. lra. }
  split; [ | exact E ].
  unfold Py.round at 1. now rewrite E.
Qed.







(** ** The chart of an analysis *)

(** The two shapes of a chart, on the clamped values. *)
Lemma bar_chart_cases (result : AnalysisResult) :
  let debt := Qmax (total_debt_raw result) 0 in
  let savings := Qmax (savings_raw result) 0 in
  let spending := Qmax (spending_raw result) 0 in
  let total := debt + savings + spending in
  (total <= 0 -> bar_chart result = chart_placeholder)
  /\ (0 < total ->
      bar_chart result
      = chart_card [ chart_row "Debt" (chart_width total debt);
                     chart_row "Savings" (chart_width total savings);
                     chart_row "Spending" (chart_width total spending) ]).
Proof.
  cbv zeta. pose proof (chart_total result) as Et. unfold bar_chart.
  set (total := Qmax _ 0 + Qmax _ 0 + Qmax _ 0) in *.
  set (total_c := Py.max _ 0 + Py.max _ 0 + Py.max (Py.max _ 0) 0) in *.
  destruct (le_spec total_c 0) as [H0 | H0]; split; intros H;
    try reflexivity; try lra.
  cbn [map].
  rewrite (chart_width_comp total_c total _ _ Et (max_Qmax (total_debt_raw result) 0)).
  rewrite (chart_width_comp total_c total _ _ Et (max_Qmax (savings_raw result) 0)).
  rewrite (chart_width_comp total_c total
             (Py.max (Py.max (spending_raw result) 0) 0) (Qmax (spending_raw result) 0) Et).
  - reflexivity.
  - rewrite !max_Qmax. apply Q.max_l, Q.le_max_r.
Qed.

Lemma chart_card_not_placeholder (rows : list FT) : chart_card rows <> chart_placeholder.
Proof. unfold chart_card, chart_placeholder. cbn. intros H. discriminate H. Qed.










(** The clamped values of the analysis of a valid input. *)
Lemma valid_chart_values (data : FinanceInput) :
  validate data = [] ->
  let r := analyze_finance data in
  Qmax (total_debt_raw r) 0 == payments data
  /\ Qmax (savings_raw r) 0 == savings_raw r
  /\ (0 < leftover data ->
      Qmax (spending_raw r) 0 == spending_raw r
      /\ Qmax (total_debt_raw r) 0 + Qmax (savings_raw r) 0 + Qmax (spending_raw r) 0
         == monthly_after_tax_income data)
  /\ (leftover data <= 0 ->
      Qmax (spending_raw r) 0 == 0
      /\ Qmax (total_debt_raw r) 0 + Qmax (savings_raw r) 0 + Qmax (spending_raw r) 0
         == payments data).
Proof.
  intros Hv. cbv zeta.
  apply validate_nil_bounds in Hv as (Hh & Ha & Hc & Hs & _ & _).
  assert (0 <= payments data) as Hp by (unfold payments; lra).
  destruct (savings_split data) as (Hsum & Hlo & Hhi).
  rewrite raw_total_debt.
  rewrite (Q.max_l (payments data) 0) by assumption.
  rewrite (Q.max_l (savings_raw (analyze_finance data)) 0) by assumption.
  split; [reflexivity | split; [reflexivity | split]]; intros Hl.
  - rewrite (Q.max_l (leftover data) 0) in Hhi by lra.
    rewrite (Q.max_l (spending_raw (analyze_finance data)) 0) by lra.
    split; [reflexivity | ]. unfold leftover in *. lra.
  - destruct (analyze_shortfall data Hl) as (_ & Es & Ep).
    rewrite Es, Ep, (Q.max_r (leftover data) 0) by assumption.
    split; [reflexivity | ring].
Qed.

(** X15: on a valid input the chart is the placeholder exactly when the
    payments and the income are all zero. *)
Theorem chart_placeholder_iff (data : FinanceInput) :
  validate data = [] ->
  (bar_chart (analyze_finance data) = chart_placeholder
   <-> payments data == 0 /\ monthly_after_tax_income data == 0).
Proof.
  intros Hv. pose proof (valid_chart_values data Hv) as (_ & _ & Hpos & Hneg).
  pose proof (validate_nil_bounds data Hv) as (Hh & Ha & Hc & Hs & Hi & _).
  assert (0 <= payments data) as Hp by (unfold payments; lra).
  destruct (bar_chart_cases (analyze_finance data)) as (Hz & Hcard).
  destruct (Qlt_le_dec 0 (leftover data)) as [Hl | Hl].
  - destruct (Hpos Hl) as (_ & Et). rewrite Hcard by (rewrite Et; unfold leftover in Hl; lra).
    split.
    + intros H. now apply chart_card_not_placeholder in H.
    + intros (E1 & E2). unfold leftover in Hl. lra.
  - destruct (Hneg Hl) as (_ & Et).
    destruct (Qlt_le_dec 0 (payments data)) as [Hq | Hq].
    + rewrite Hcard by (rewrite Et; assumption). split.
      * intros H. now apply chart_card_not_placeholder in H.
      * intros (E1 & _). lra.
    + rewrite Hz by (rewrite Et; assumption). split; [ | reflexivity ].
      intros _. unfold leftover in Hl. split; lra.
Qed.

(** The defaults of the form: nothing entered, nothing to chart. *)
Lemma chart_placeholder_iff_witness :
  bar_chart (analyze_finance form_defaults) = chart_placeholder.
Proof.
  apply (chart_placeholder_iff form_defaults); [reflexivity | ].
  split; reflexivity.
Defined.





(** ** The responses of the handler *)

(** X18: every response is a [div] with the id [result], the target of the
    form.  It has either one child, the error card, after the single call
    of [validate], or three children (results card, chart, advice) after
    the four calls validate, analyze, advice, chart in this order; never
    anything in between. *)
Theorem post_response_shape (finance : FinanceInput) :
  exists children : list FT,
    result_children (fst (post finance)) = Some children
    /\ ((validate finance <> []
         /\ List.length children = 1%nat
         /\ snd (post finance) = [CallValidate])
        \/ (validate finance = []
            /\ List.length children = 3%nat
            /\ snd (post finance) = [CallValidate; CallAnalyze; CallAdvice; CallChart])).
Proof.
  destruct (validate finance) as [ | e errors ] eqn:Hv.
  - destruct (post_valid finance Hv) as (s & c & ->).
    eexists. split; [reflexivity | ]. right. repeat split.
  - unfold post, bind, call, ret. rewrite Hv. cbn.
    eexists. split; [reflexivity | ]. left. repeat split. discriminate.
Qed.

Lemma summary_of_mode (result : AnalysisResult) (m m' : string) :
  String.eqb m "monthly" = String.eqb m' "monthly" ->
  summary_of result m = summary_of result m'.
Proof. intros E. unfold summary_of. now rewrite E. Qed.

Lemma detail_items_mode (result : AnalysisResult) (m m' : string) (b : bool) :
  String.eqb m "monthly" = String.eqb m' "monthly" ->
  detail_items result m b = detail_items result m' b.
Proof. intros E. unfold detail_items. now rewrite E. Qed.

(** X19: only the exact value [monthly] selects the monthly view: with any
    other [period_mode], the empty string included, the response is the
    one of the per-paycheck view. *)
Theorem post_mode_fallback (finance : FinanceInput) :
  period_mode finance <> "monthly" ->
  post finance = post (with_period_mode "paycheck" finance).
Proof.
  intros Hm. unfold post, bind, call, ret.
  change (validate (with_period_mode "paycheck" finance)) with (validate finance).
  destruct (Py.truthy (validate finance)); [reflexivity | ].
  change (analyze_finance (with_period_mode "paycheck" finance))
    with (analyze_finance finance).
  cbn [period_mode show_annual with_period_mode].
  assert (String.eqb (Py.or_str (period_mode finance) "paycheck") "monthly"
          = String.eqb (Py.or_str "paycheck" "paycheck") "monthly") as E.
  { unfold Py.or_str. destruct (Py.bool_str (period_mode finance)); [ | reflexivity ].
    apply String.eqb_neq in Hm. rewrite Hm. reflexivity. }
  rewrite (summary_of_mode _ _ _ E), (detail_items_mode _ _ _ _ E). reflexivity.
Qed.

(** Scenario A with no view mode submitted. *)
Lemma post_mode_fallback_witness :
  post (with_period_mode "" scenario_A) = post scenario_A.
Proof. apply (post_mode_fallback (with_period_mode "" scenario_A)). discriminate. Defined.



(** X21: ticking the annual box changes one thing in the response of a
    valid submission: the detail list, four lines without it, gets a fifth
    and last line with the annual savings and the annual spending. *)
Theorem post_annual_line (finance : FinanceInput) (checked : string) :
  validate finance = [] ->
  checked <> "" ->
  exists items : list FT,
    rendered_items (fst (post (with_show_annual "" finance))) = Some items
    /\ List.length items = 4%nat
    /\ rendered_items (fst (post (with_show_annual checked finance)))
       = Some (items ++ [annual_line (analyze_finance finance)])
    /\ rendered_chart (fst (post (with_show_annual checked finance)))
       = rendered_chart (fst (post (with_show_annual "" finance)))
    /\ rendered_summary_cls (fst (post (with_show_annual checked finance)))
       = rendered_summary_cls (fst (post (with_show_annual "" finance))).
Proof.
  intros Hv Hc. unfold post, bind, call, ret.
  change (validate (with_show_annual "" finance)) with (validate finance).
  change (validate (with_show_annual checked finance)) with (validate finance).
  rewrite Hv. cbn [Py.truthy].
  change (analyze_finance (with_show_annual "" finance)) with (analyze_finance finance).
  change (analyze_finance (with_show_annual checked finance)) with (analyze_finance finance).
  cbn [period_mode show_annual with_show_annual].
  destruct (summary_of _ _) as [summary summary_cls].
  assert (Py.bool_str checked = true) as -> by (destruct checked; [congruence | reflexivity]).
  cbn [Py.bool_str]. unfold detail_items, annual_line.
  destruct (String.eqb _ "monthly"); cbn [append_if app fst snd];
    eexists; (split; [reflexivity | ]); repeat split.
Qed.

(** Scenario A with the box ticked. *)
Lemma post_annual_line_witness :
  rendered_items (fst (post (with_show_annual "on" scenario_A)))
  = option_map (fun items => items ++ [annual_line (analyze_finance scenario_A)])
               (rendered_items (fst (post (with_show_annual "" scenario_A)))).
Proof.
  destruct (post_annual_line scenario_A "on") as (items & E0 & _ & E1 & _);
    [reflexivity | discriminate | ].
  rewrite E0, E1. reflexivity.
Defined.

(** ** What is displayed *)




